(** * BandSplitRNN: the band-sequence stack and its squeeze-and-excite gate

    A shallow embedding of [src/model/modules/se_layer.py] (class
    [SELayer1D]) and [src/model/modules/bandsequence.py] (classes
    [RNNModule] and [BandSequenceModelModule]).

    Tensors are contiguous, row-major arrays of reals: a shape together
    with an indexing function.  Arithmetic is the arithmetic of the real
    numbers; rounding of the floating-point runtime is not part of the
    model.  Constructors and forward passes return a [result], so that
    the exceptions raised by Python and by the tensor library are
    visible. *)

From Stdlib Require Import Reals Lra Lia ZArith List String Bool Arith.
Import ListNotations.

Local Open Scope nat_scope.

(** ** Exceptions and results *)

Inductive exn : Type :=
| AttributeError
| TypeError
| ValueError
| RuntimeError
| ZeroDivisionError
| IndexError.

Inductive result (A : Type) : Type :=
| Ok (a : A)
| Raise (e : exn).

Arguments Ok {A} a.
Arguments Raise {A} e.

Definition bind {A B : Type} (m : result A) (k : A -> result B) : result B :=
  match m with
  | Ok a => k a
  | Raise e => Raise e
  end.

Notation "x <- m ;; k" := (bind m (fun x => k))
  (at level 61, m at next level, right associativity).

Definition is_ok {A : Type} (m : result A) : bool :=
  match m with Ok _ => true | Raise _ => false end.

(** ** Tensors *)

Record tensor3 : Type := mk3 {
  shape3 : nat * nat * nat;
  at3 : nat -> nat -> nat -> R
}.

Record tensor4 : Type := mk4 {
  shape4 : nat * nat * nat * nat;
  at4 : nat -> nat -> nat -> nat -> R
}.

Definition numel3 (s : nat * nat * nat) : nat :=
  let '(r, t, n) := s in r * t * n.

Definition numel4 (s : nat * nat * nat * nat) : nat :=
  let '(b, k, t, n) := s in b * k * t * n.

(** Row-major offsets of an index, and the element stored at an offset. *)

Definition offset3 (s : nat * nat * nat) (r t n : nat) : nat :=
  let '(_, T, N) := s in (r * T + t) * N + n.

Definition offset4 (s : nat * nat * nat * nat) (b k t n : nat) : nat :=
  let '(_, K, T, N) := s in ((b * K + k) * T + t) * N + n.

Definition flat3 (x : tensor3) (off : nat) : R :=
  let '(_, T, N) := shape3 x in
  at3 x (off / N / T) ((off / N) mod T) (off mod N).

Definition flat4 (x : tensor4) (off : nat) : R :=
  let '(_, K, T, N) := shape4 x in
  at4 x (off / N / T / K) ((off / N / T) mod K) ((off / N) mod T) (off mod N).

(** [x.view(r, t, n)] and [x.view(b, k, t, n)] of a contiguous tensor: the
    storage is read in the same order under the new shape; the element
    counts must agree. *)

Definition view43 (x : tensor4) (s : nat * nat * nat) : result tensor3 :=
  if numel4 (shape4 x) =? numel3 s
  then Ok (mk3 s (fun r t n => flat4 x (offset3 s r t n)))
  else Raise RuntimeError.

Definition view34 (x : tensor3) (s : nat * nat * nat * nat) : result tensor4 :=
  if numel3 (shape3 x) =? numel4 s
  then Ok (mk4 s (fun b k t n => flat3 x (offset4 s b k t n)))
  else Raise RuntimeError.

Definition view44 (x : tensor4) (s : nat * nat * nat * nat) : result tensor4 :=
  if numel4 (shape4 x) =? numel4 s
  then Ok (mk4 s (fun b k t n => flat4 x (offset4 s b k t n)))
  else Raise RuntimeError.

(** [x.transpose(-1, -2)] / [x.permute(0, 2, 1)] on rank 3 and
    [x.permute(0, 2, 1, 3)] on rank 4, followed by [contiguous()]. *)

Definition transpose3 (x : tensor3) : tensor3 :=
  let '(r, a, b) := shape3 x in
  mk3 (r, b, a) (fun i j k => at3 x i k j).

Definition permute0213 (x : tensor4) : tensor4 :=
  let '(b, k, t, n) := shape4 x in
  mk4 (b, t, k, n) (fun i j l m => at4 x i l j m).

Definition shape4_eqb (s s' : nat * nat * nat * nat) : bool :=
  let '(b, k, t, n) := s in
  let '(b', k', t', n') := s' in
  (b =? b') && (k =? k') && (t =? t') && (n =? n').

(** [a + b] on tensors of one shape (the only case the modules reach). *)

Definition tadd4 (a b : tensor4) : result tensor4 :=
  if shape4_eqb (shape4 a) (shape4 b)
  then Ok (mk4 (shape4 a) (fun i j l m => (at4 a i j l m + at4 b i j l m)%R))
  else Raise RuntimeError.

(** [x * y] with [y] broadcast along the last axis when its length is 1. *)

Definition tmul3 (x y : tensor3) : result tensor3 :=
  let '(r, c, l) := shape3 x in
  let '(r', c', l') := shape3 y in
  if (r =? r') && (c =? c') && ((l' =? l) || (l' =? 1))
  then Ok (mk3 (r, c, l)
             (fun i j k => (at3 x i j k * at3 y i j (if l' =? 1 then 0 else k))%R))
  else Raise RuntimeError.

(** Finite sums [f 0 + ... + f (n-1)]. *)

Fixpoint sum_n (f : nat -> R) (n : nat) : R :=
  match n with
  | O => 0%R
  | S k => (sum_n f k + f k)%R
  end.

(** ** Library layers used by the modules *)

(** [nn.AdaptiveAvgPool1d(1)]: mean over the last axis. *)

Definition avg_pool (x : tensor3) : tensor3 :=
  let '(r, c, l) := shape3 x in
  mk3 (r, c, 1) (fun i j _ => (sum_n (fun k => at3 x i j k) l / INR l)%R).

(** [nn.Conv1d(cin, cout, kernel_size=1, bias=False)] applied to
    [rows, cin, length]. *)

Definition conv1d (cin cout : nat) (w : nat -> nat -> R) (x : tensor3)
  : result tensor3 :=
  let '(r, c, l) := shape3 x in
  if c =? cin
  then Ok (mk3 (r, cout, l)
             (fun i o k => sum_n (fun j => (w o j * at3 x i j k)%R) cin))
  else Raise RuntimeError.

Definition relu (v : R) : R := Rmax 0 v.

Definition sigmoid (v : R) : R := (1 / (1 + exp (- v)))%R.

Definition map3 (f : R -> R) (x : tensor3) : tensor3 :=
  mk3 (shape3 x) (fun i j k => f (at3 x i j k)).

(** ** [SELayer1D] *)

(** Creating the weight of a convolution or linear layer allocates a
    [cout x cin] array, which the library refuses for a negative size. *)

Definition alloc2 (cout cin : Z) : result unit :=
  if ((cout <? 0) || (cin <? 0))%Z then Raise RuntimeError else Ok tt.

(** Python's [a // b]. *)

Definition floordiv (a b : Z) : result Z :=
  if (b =? 0)%Z then Raise ZeroDivisionError else Ok (a / b)%Z.

Record SEWeights : Type := mkSEW {
  fc1_weight : nat -> nat -> R;
  fc2_weight : nat -> nat -> R
}.

Record SELayer1D : Type := mkSE {
  se_channel : nat;
  se_hidden : nat;
  se_weights : SEWeights
}.

Definition default_reduction : Z := 16.

Definition SELayer1D_init (channel reduction : Z) (w : SEWeights)
  : result SELayer1D :=
  hidden <- floordiv channel reduction ;;
  _ <- alloc2 hidden channel ;;
  _ <- alloc2 channel hidden ;;
  Ok (mkSE (Z.to_nat channel) (Z.to_nat hidden) w).

(** Lines 15-18 of [forward]: the value handed to the sigmoid. *)

Definition SELayer1D_logits (m : SELayer1D) (x : tensor3) : result tensor3 :=
  let y := avg_pool x in
  y <- conv1d (se_channel m) (se_hidden m) (fc1_weight (se_weights m)) y ;;
  let y := map3 relu y in
  conv1d (se_hidden m) (se_channel m) (fc2_weight (se_weights m)) y.

(** Lines 15-19: the gate. *)

Definition SELayer1D_gate (m : SELayer1D) (x : tensor3) : result tensor3 :=
  y <- SELayer1D_logits m x ;;
  Ok (map3 sigmoid y).

Definition SELayer1D_forward (m : SELayer1D) (x : tensor3) : result tensor3 :=
  y <- SELayer1D_gate m x ;;
  tmul3 x y.

(** ** [nn.GroupNorm] *)

Definition gn_eps : R := (1 / 100000)%R.

Record GroupNorm : Type := mkGN {
  num_groups : nat;
  num_channels : nat;
  gn_weight : nat -> R;
  gn_bias : nat -> R
}.

(** The constructor evaluates [num_channels % num_groups] and allocates
    the per-channel scale and shift. *)

Definition GroupNorm_init (groups channels : Z) : result unit :=
  if (groups =? 0)%Z then Raise ZeroDivisionError
  else if negb (channels mod groups =? 0)%Z then Raise ValueError
  else if (channels <? 0)%Z then Raise RuntimeError
  else Ok tt.

(** Statistics of one group [g] of one row [r] of a [rows, C, L] input: the
    group holds [cs] consecutive channels, and the population is those
    channels at every position of that row. *)

Definition gn_sum (x : tensor3) (cs l r g : nat) (f : R -> R) : R :=
  sum_n (fun j => sum_n (fun p => f (at3 x r (g * cs + j) p)) l) cs.

Definition gn_mean (x : tensor3) (cs l r g : nat) : R :=
  (gn_sum x cs l r g (fun v => v) / INR (cs * l))%R.

Definition gn_var (x : tensor3) (cs l r g : nat) : R :=
  let mu := gn_mean x cs l r g in
  (gn_sum x cs l r g (fun v => (v - mu) * (v - mu)) / INR (cs * l))%R.

Definition group_norm (gn : GroupNorm) (x : tensor3) : result tensor3 :=
  let '(rows, c, l) := shape3 x in
  if c =? num_channels gn
  then
    let cs := c / num_groups gn in
    Ok (mk3 (rows, c, l)
          (fun r j p =>
             let g := j / cs in
             ((at3 x r j p - gn_mean x cs l r g)
              / sqrt (gn_var x cs l r g + gn_eps)
              * gn_weight gn j + gn_bias gn j)%R))
  else Raise RuntimeError.

(** ** The recurrent layer and [nn.Linear] *)

Inductive rnn_kind : Type := PlainRNN | LSTM | GRU.

(** What [getattr(nn, name)] finds: the three recurrent layers, other
    layer classes (the ones this repository uses are listed), or nothing. *)

Inductive nn_attr : Type :=
| Recurrent (k : rnn_kind)
| OtherLayer.

Definition nn_namespace : list (string * nn_attr) :=
  [ ("RNN", Recurrent PlainRNN); ("LSTM", Recurrent LSTM);
    ("GRU", Recurrent GRU);
    ("Module", OtherLayer); ("ModuleList", OtherLayer);
    ("Sequential", OtherLayer); ("GroupNorm", OtherLayer);
    ("Linear", OtherLayer); ("Conv1d", OtherLayer);
    ("AdaptiveAvgPool1d", OtherLayer); ("Sigmoid", OtherLayer) ]%string.

Fixpoint assoc (name : string) (l : list (string * nn_attr)) : option nn_attr :=
  match l with
  | [] => None
  | (k, v) :: rest => if String.eqb name k then Some v else assoc name rest
  end.

Definition getattr_nn (name : string) : result nn_attr :=
  match assoc name nn_namespace with
  | Some a => Ok a
  | None => Raise AttributeError
  end.

(** Calling the attribute as
    [cls(input_size, hidden_size, batch_first=True, bidirectional=...)]:
    a class that is not recurrent rejects the keywords; a recurrent layer
    refuses a non-positive hidden size and cannot allocate weights for a
    negative input size. *)

Definition rnn_init (a : nn_attr) (input_size hidden_size : Z) : result rnn_kind :=
  match a with
  | OtherLayer => Raise TypeError
  | Recurrent k =>
      if (hidden_size <=? 0)%Z then Raise ValueError
      else if (input_size <? 0)%Z then Raise RuntimeError
      else Ok k
  end.

Definition linear (fin fout : nat) (w : nat -> nat -> R) (b : nat -> R)
  (x : tensor3) : result tensor3 :=
  let '(r, t, f) := shape3 x in
  if f =? fin
  then Ok (mk3 (r, t, fout)
             (fun i j o => (sum_n (fun h => at3 x i j h * w o h) fin + b o)%R))
  else Raise RuntimeError.

(** ** [RNNModule] *)

(** The learned values of one block.  [rnn_run] is the recurrent layer's
    first output, as a function of its whole input. *)

Record RNNWeights : Type := mkRW {
  norm_weight : nat -> R;
  norm_bias : nat -> R;
  rnn_run : tensor3 -> nat -> nat -> nat -> R;
  lin_weight : nat -> nat -> R;
  lin_bias : nat -> R
}.

Record RNNModule : Type := mkRNN {
  input_dim : nat;
  rnn_cls : rnn_kind;
  rnn_features : nat;
  rnn_weights : RNNWeights
}.

Definition RNNModule_init (input_dim_size hidden_dim_size : Z)
  (rnn_type : string) (bidirectional : bool) (w : RNNWeights)
  : result RNNModule :=
  _ <- GroupNorm_init input_dim_size input_dim_size ;;
  cls <- getattr_nn rnn_type ;;
  k <- rnn_init cls input_dim_size hidden_dim_size ;;
  let features :=
    (if bidirectional then hidden_dim_size * 2 else hidden_dim_size)%Z in
  _ <- alloc2 input_dim_size features ;;
  Ok (mkRNN (Z.to_nat input_dim_size) k (Z.to_nat features) w).

Definition groupnorm (m : RNNModule) : GroupNorm :=
  mkGN (input_dim m) (input_dim m)
    (norm_weight (rnn_weights m)) (norm_bias (rnn_weights m)).

(** [self.rnn(out)[0]] with [batch_first=True]. *)

Definition rnn (m : RNNModule) (x : tensor3) : result tensor3 :=
  let '(r, t, n) := shape3 x in
  if n =? input_dim m
  then Ok (mk3 (r, t, rnn_features m) (rnn_run (rnn_weights m) x))
  else Raise RuntimeError.

Definition fc (m : RNNModule) (x : tensor3) : result tensor3 :=
  linear (rnn_features m) (input_dim m)
    (lin_weight (rnn_weights m)) (lin_bias (rnn_weights m)) x.

(** Lines 40-46 of [RNNModule.forward]: normalisation, recurrence and
    projection of the folded input. *)

Definition RNNModule_branch (m : RNNModule) (x : tensor4) : result tensor3 :=
  let '(B, K, T, N) := shape4 x in
  out <- view43 x (B * K, T, N) ;;
  out <- group_norm (groupnorm m) (transpose3 out) ;;
  let out := transpose3 out in
  out <- rnn m out ;;
  fc m out.

(** Lines 38-48: everything before the last [permute]. *)

Definition RNNModule_residual (m : RNNModule) (x : tensor4) : result tensor4 :=
  let '(B, K, T, N) := shape4 x in
  out <- RNNModule_branch m x ;;
  out <- view34 out (B, K, T, N) ;;
  tadd4 out x.

Definition RNNModule_forward (m : RNNModule) (x : tensor4) : result tensor4 :=
  x <- RNNModule_residual m x ;;
  Ok (permute0213 x).

(** ** [BandSequenceModelModule] *)

Record BandSequenceModelModule : Type := mkBS {
  bsrnn : list (RNNModule * RNNModule);
  se_layers : list SELayer1D
}.

Fixpoint mapM {A B : Type} (f : A -> result B) (l : list A) : result (list B) :=
  match l with
  | [] => Ok []
  | a :: rest => b <- f a ;; bs <- mapM f rest ;; Ok (b :: bs)
  end.

Definition default_rnn_type : string := "lstm"%string.
Definition default_bidirectional : bool := true.
Definition default_num_layers : Z := 12.

(** [wt i], [wk i] and [ws j] are the values the parameters of the i-th
    pair of blocks and of the j-th gate hold. *)

Definition BandSequenceModelModule_init (input_dim_size hidden_dim_size : Z)
  (rnn_type : string) (bidirectional : bool) (num_layers : Z)
  (wt wk : nat -> RNNWeights) (ws : nat -> SEWeights)
  : result BandSequenceModelModule :=
  layers <- mapM (fun i =>
      rnn_across_t <- RNNModule_init input_dim_size hidden_dim_size
                        rnn_type bidirectional (wt i) ;;
      rnn_across_k <- RNNModule_init input_dim_size hidden_dim_size
                        rnn_type bidirectional (wk i) ;;
      Ok (rnn_across_t, rnn_across_k))
    (seq 0 (Z.to_nat num_layers)) ;;
  gates <- mapM (fun j => SELayer1D_init input_dim_size default_reduction (ws j))
    (seq 0 (Z.to_nat (num_layers * 2))) ;;
  Ok (mkBS layers gates).

(** [nn.Sequential(rnn_across_t, rnn_across_k)]. *)

Definition Sequential (p : RNNModule * RNNModule) (x : tensor4) : result tensor4 :=
  x <- RNNModule_forward (fst p) x ;;
  RNNModule_forward (snd p) x.

Definition get_se (se : list SELayer1D) (i : nat) : result SELayer1D :=
  match nth_error se i with
  | Some g => Ok g
  | None => Raise IndexError
  end.

(** Lines 97-103: the first gate call of an iteration; its result is the
    local [x_]. *)

Definition first_gate (g : SELayer1D) (x : tensor4) : result tensor4 :=
  let '(B, K, T, N) := shape4 x in
  x_ <- view43 x (B * K, T, N) ;;
  let x_ := transpose3 x_ in
  x_ <- SELayer1D_forward g x_ ;;
  view34 (transpose3 x_) (B, K, T, N).

(** Lines 111-117: the second gate call, which reads [x] again. *)

Definition second_gate (g : SELayer1D) (x : tensor4) : result tensor4 :=
  let '(B, K, T, N) := shape4 x in
  x_ <- view44 x (B, K, T, N) ;;
  let x_ := permute0213 x_ in
  x_ <- view43 x_ (B * T, K, N) ;;
  let x_ := transpose3 x_ in
  x_ <- SELayer1D_forward g x_ ;;
  x_ <- view34 (transpose3 x_) (B, T, K, N) ;;
  Ok (permute0213 x_).

(** The loop of [forward], with [se_idx] threaded through. *)

Fixpoint forward_loop (layers : list (RNNModule * RNNModule))
  (se : list SELayer1D) (se_idx : nat) (x : tensor4) : result tensor4 :=
  match layers with
  | [] => Ok x
  | layer :: rest =>
      x <- Sequential layer x ;;
      g <- get_se se se_idx ;;
      x_ <- first_gate g x ;;
      let se_idx := se_idx + 1 in
      g <- get_se se se_idx ;;
      x_ <- second_gate g x ;;
      let se_idx := se_idx + 1 in
      let x := x_ in
      forward_loop rest se se_idx x
  end.

Definition forward (s : BandSequenceModelModule) (x : tensor4) : result tensor4 :=
  forward_loop (bsrnn s) (se_layers s) 0 x.

(** ** Reference definitions, written from the specification's wording *)

(** The stack with the even-indexed gates removed: layer [i] runs its two
    blocks and then the one remaining gate. *)

Fixpoint odd_gates (se : list SELayer1D) : list SELayer1D :=
  match se with
  | _ :: g :: rest => g :: odd_gates rest
  | _ => []
  end.

Fixpoint forward_one_gate_loop (layers : list (RNNModule * RNNModule))
  (gates : list SELayer1D) (idx : nat) (x : tensor4) : result tensor4 :=
  match layers with
  | [] => Ok x
  | layer :: rest =>
      x <- Sequential layer x ;;
      g <- get_se gates idx ;;
      x <- second_gate g x ;;
      forward_one_gate_loop rest gates (idx + 1) x
  end.

Definition forward_without_even_gates (s : BandSequenceModelModule)
  (x : tensor4) : result tensor4 :=
  forward_one_gate_loop (bsrnn s) (odd_gates (se_layers s)) 0 x.

(** The order of section 4.3 of the specification: block across time,
    gate [2i] on its output, block across bands, gate [2i+1] on its
    output.  A gate applied to [B', K', T', N] sees [B'K', N, T']. *)



(** Normalisation of each channel over the joint population of all rows
    and all positions, as section 4.2 step 2 words it. *)




(** Well-formed stacks: what [__init__] establishes. *)

Definition block_ok (n : nat) (m : RNNModule) : Prop := input_dim m = n.

Definition stack_ok (n : nat) (s : BandSequenceModelModule) : Prop :=
  Forall (fun p => block_ok n (fst p) /\ block_ok n (snd p)) (bsrnn s) /\
  Forall (fun g => se_channel g = n) (se_layers s) /\
  List.length (se_layers s) = 2 * List.length (bsrnn s).

(** Iterating blocks: [n] consecutive calls of [RNNModule.forward]. *)



(** Statistics of one channel of one row, over the positions only. *)



(** ** Sample parameters and inputs *)

(** A block whose recurrence and projection are the zero map. *)

Definition zero_block_weights : RNNWeights :=
  mkRW (fun _ => 1%R) (fun _ => 0%R) (fun _ _ _ _ => 0%R)
       (fun _ _ => 0%R) (fun _ => 0%R).

(** A gate whose two projections are zero. *)

Definition zero_gate_weights : SEWeights :=
  mkSEW (fun _ _ => 0%R) (fun _ _ => 0%R).

Definition ones4 (B K T N : nat) : tensor4 :=
  mk4 (B, K, T, N) (fun _ _ _ _ => 1%R).


Definition sample_block : RNNModule := mkRNN 16 LSTM 64 zero_block_weights.

Definition sample_gate : SELayer1D := mkSE 16 1 zero_gate_weights.

Definition sample_stack : BandSequenceModelModule :=
  mkBS [(sample_block, sample_block)] [sample_gate; sample_gate].

(** Row 0 holds ones, every other row holds fives. *)


(** Two rows, one channel, one position: the rows hold 1 and 3. *)



(** ** Calling the constructor with the keywords of a dictionary *)

(** The values the script at the end of [bandsequence.py] puts in [cfg]. *)

Inductive pyval : Type :=
| PyInt (z : Z)
| PyStr (s : string)
| PyBool (b : bool).

(** The parameters of [__init__] after [self], with their defaults. *)

Definition init_signature : list (string * option pyval) :=
  [ ("input_dim_size", None); ("hidden_dim_size", None);
    ("rnn_type", Some (PyStr default_rnn_type));
    ("bidirectional", Some (PyBool default_bidirectional));
    ("num_layers", Some (PyInt default_num_layers)) ]%string.

Fixpoint lookup_kw (name : string) (kwargs : list (string * pyval))
  : option pyval :=
  match kwargs with
  | [] => None
  | (k, v) :: rest => if String.eqb name k then Some v else lookup_kw name rest
  end.

Definition is_parameter (name : string) : bool :=
  existsb (fun p => String.eqb name (fst p)) init_signature.

(** Python binds the keywords before the body runs: a keyword that names
    no parameter, or a parameter without default that gets no value, is a
    [TypeError]. *)

Definition bind_kwargs (kwargs : list (string * pyval)) : result (list pyval) :=
  if existsb (fun kv => negb (is_parameter (fst kv))) kwargs
  then Raise TypeError
  else mapM (fun p =>
               match lookup_kw (fst p) kwargs, snd p with
               | Some v, _ => Ok v
               | None, Some d => Ok d
               | None, None => Raise TypeError
               end) init_signature.

(** The call.  Arguments are taken at the types the signature annotates;
    any other value is rejected here. *)

Definition BandSequenceModelModule_call (kwargs : list (string * pyval))
  (wt wk : nat -> RNNWeights) (ws : nat -> SEWeights)
  : result BandSequenceModelModule :=
  args <- bind_kwargs kwargs ;;
  match args with
  | [PyInt n; PyInt h; PyStr ty; PyBool bd; PyInt layers] =>
      BandSequenceModelModule_init n h ty bd layers wt wk ws
  | _ => Raise TypeError
  end.

(** [cfg] of the script (lines 127-134). *)

Definition main_cfg : list (string * pyval) :=
  [ ("t_timesteps", PyInt 259); ("input_dim_size", PyInt 128);
    ("hidden_dim_size", PyInt 256); ("rnn_type", PyStr "LSTM");
    ("bidirectional", PyBool true); ("num_layers", PyInt 12) ]%string.

(** ** Further sample inputs *)

(** Entries that differ along every axis. *)

Definition ramp4 (B K T N : nat) : tensor4 :=
  mk4 (B, K, T, N) (fun b k t n => INR (b + 2 * k + 3 * t + 5 * n)).

(** [ramp4] with the order of the bands, or of the time steps, reversed. *)



Definition ramp3 (r c l : nat) : tensor3 :=
  mk3 (r, c, l) (fun i j k => INR (i + 2 * j + 3 * k)).

(** [ramp3] with the positions of every row and channel reversed. *)


(** [ramp3] with [INR (i + j)] added to every position of row [i],
    channel [j]. *)


(** A gate layer and a block with non-zero parameters. *)

Definition mixing_gate_weights : SEWeights :=
  mkSEW (fun o j => INR (o + j + 1)) (fun j o => (INR (j + 1) - 2)%R).

Definition mixing_gate : SELayer1D := mkSE 16 1 mixing_gate_weights.

Definition mixing_block_weights : RNNWeights :=
  mkRW (fun j => INR (j + 1)) (fun j => INR j)
       (fun u i j h => (at3 u i j 0 + INR h)%R)
       (fun o h => INR (o + h)) (fun o => INR o).


(** * Properties *)

(** ** Index arithmetic of [view] *)

Lemma divmod_step (a N n : nat) :
  n < N -> (a * N + n) / N = a /\ (a * N + n) mod N = n.
Proof.
  intros Hn. split.
  - rewrite Nat.div_add_l by lia. rewrite Nat.div_small by exact Hn. lia.
  - rewrite Nat.add_comm, Nat.Div0.mod_add. now apply Nat.mod_small.
Qed.

Lemma flat4_offset4 (x : tensor4) (B K T N b k t n : nat) :
  shape4 x = (B, K, T, N) -> k < K -> t < T -> n < N ->
  flat4 x (offset4 (B, K, T, N) b k t n) = at4 x b k t n.
Proof.
  intros Hs Hk Ht Hn. unfold flat4, offset4. rewrite Hs.
  destruct (divmod_step ((b * K + k) * T + t) N n Hn) as [-> ->].
  destruct (divmod_step (b * K + k) T t Ht) as [-> ->].
  destruct (divmod_step b K k Hk) as [-> ->].
  reflexivity.
Qed.

Lemma flat3_offset3 (x : tensor3) (R0 T N r t n : nat) :
  shape3 x = (R0, T, N) -> t < T -> n < N ->
  flat3 x (offset3 (R0, T, N) r t n) = at3 x r t n.
Proof.
  intros Hs Ht Hn. unfold flat3, offset3. rewrite Hs.
  destruct (divmod_step (r * T + t) N n Hn) as [-> ->].
  destruct (divmod_step r T t Ht) as [-> ->].
  reflexivity.
Qed.

Lemma view43_ok (x : tensor4) (B K T N : nat) :
  shape4 x = (B, K, T, N) ->
  view43 x (B * K, T, N)
  = Ok (mk3 (B * K, T, N) (fun r t n => flat4 x (offset3 (B * K, T, N) r t n))).
Proof.
  intros Hs. unfold view43. rewrite Hs. simpl. now rewrite Nat.eqb_refl.
Qed.

Lemma view34_ok (y : tensor3) (B K T N : nat) :
  shape3 y = (B * K, T, N) ->
  view34 y (B, K, T, N)
  = Ok (mk4 (B, K, T, N) (fun b k t n => flat3 y (offset4 (B, K, T, N) b k t n))).
Proof.
  intros Hs. unfold view34. rewrite Hs. simpl. now rewrite Nat.eqb_refl.
Qed.


(** Folding the two leading axes: row [b * K + k] of the folded tensor is
    the slice [(b, k)] of the original. *)

Lemma fold_at (x : tensor4) (B K T N b k t n : nat) :
  shape4 x = (B, K, T, N) -> k < K -> t < T -> n < N ->
  flat4 x (offset3 (B * K, T, N) (b * K + k) t n) = at4 x b k t n.
Proof.
  intros Hs Hk Ht Hn.
  change (offset3 (B * K, T, N) (b * K + k) t n)
    with (offset4 (B, K, T, N) b k t n).
  now apply flat4_offset4.
Qed.

Lemma unfold_at (y : tensor3) (B K T N b k t n : nat) :
  shape3 y = (B * K, T, N) -> t < T -> n < N ->
  flat3 y (offset4 (B, K, T, N) b k t n) = at3 y (b * K + k) t n.
Proof.
  intros Hs Ht Hn.
  change (offset4 (B, K, T, N) b k t n)
    with (offset3 (B * K, T, N) (b * K + k) t n).
  now apply flat3_offset3.
Qed.

(** ** The squeeze-and-excite gate *)





(** On an input of the configured channel count the layer succeeds; the
    logits and the gate have one entry per row and channel. *)

Lemma SELayer1D_logits_ok (m : SELayer1D) (x : tensor3) (r c l : nat) :
  shape3 x = (r, c, l) -> c = se_channel m ->
  exists y, SELayer1D_logits m x = Ok y /\ shape3 y = (r, c, 1).
Proof.
  intros Hs Hc. unfold SELayer1D_logits, avg_pool, conv1d, map3.
  rewrite Hs. simpl. rewrite <- Hc, Nat.eqb_refl. simpl.
  rewrite Nat.eqb_refl. simpl. eexists. split; reflexivity.
Qed.

Lemma SELayer1D_forward_ok (m : SELayer1D) (x : tensor3) (r c l : nat) :
  shape3 x = (r, c, l) -> c = se_channel m ->
  exists z g,
    SELayer1D_logits m x = Ok z /\
    SELayer1D_gate m x = Ok g /\
    shape3 g = (r, c, 1) /\
    (forall i j k, at3 g i j k = sigmoid (at3 z i j k)) /\
    SELayer1D_forward m x
    = Ok (mk3 (r, c, l) (fun i j k => (at3 x i j k * at3 g i j 0)%R)).
Proof.
  intros Hs Hc.
  destruct (SELayer1D_logits_ok m x r c l Hs Hc) as (z & Hz & Hzs).
  exists z, (map3 sigmoid z).
  unfold SELayer1D_forward, SELayer1D_gate. rewrite Hz. simpl.
  repeat split; try assumption.
  unfold tmul3. rewrite Hs. simpl. rewrite Hzs.
  rewrite !Nat.eqb_refl. simpl. rewrite orb_true_r. reflexivity.
Qed.

Lemma SELayer1D_forward_shape (m : SELayer1D) (x : tensor3) (r c l : nat) :
  shape3 x = (r, c, l) -> c = se_channel m ->
  exists y, SELayer1D_forward m x = Ok y /\ shape3 y = (r, c, l).
Proof.
  intros Hs Hc.
  destruct (SELayer1D_forward_ok m x r c l Hs Hc) as (z & g & _ & _ & _ & _ & H).
  eexists. split; [exact H | reflexivity].
Qed.

(** With both projections zero the logits vanish. *)


(** ** One block *)

Lemma shape4_eqb_refl (s : nat * nat * nat * nat) : shape4_eqb s s = true.
Proof.
  destruct s as [[[b k] t] n]. simpl. now rewrite !Nat.eqb_refl.
Qed.

Lemma RNNModule_branch_ok (m : RNNModule) (x : tensor4) (B K T N : nat) :
  shape4 x = (B, K, T, N) -> N = input_dim m ->
  exists p, RNNModule_branch m x = Ok p /\ shape3 p = (B * K, T, N).
Proof.
  intros Hs HN. unfold RNNModule_branch. rewrite Hs.
  rewrite (view43_ok x B K T N Hs). simpl.
  unfold group_norm, transpose3. simpl. rewrite <- HN, Nat.eqb_refl. simpl.
  unfold rnn. simpl. rewrite <- HN, Nat.eqb_refl. simpl.
  unfold fc, linear. simpl. rewrite Nat.eqb_refl, <- HN.
  eexists. split; reflexivity.
Qed.

(** A block only returns for an input whose feature axis has the
    configured width. *)

Lemma RNNModule_branch_inv (m : RNNModule) (x : tensor4) (p : tensor3)
  (B K T N : nat) :
  shape4 x = (B, K, T, N) -> RNNModule_branch m x = Ok p -> N = input_dim m.
Proof.
  intros Hs. unfold RNNModule_branch. rewrite Hs.
  rewrite (view43_ok x B K T N Hs). simpl.
  unfold group_norm, transpose3. simpl.
  destruct (N =? input_dim m) eqn:E; simpl.
  - intros _. now apply Nat.eqb_eq.
  - discriminate.
Qed.

Lemma RNNModule_residual_ok (m : RNNModule) (x : tensor4) (B K T N : nat) :
  shape4 x = (B, K, T, N) -> N = input_dim m ->
  exists p y,
    RNNModule_branch m x = Ok p /\ shape3 p = (B * K, T, N) /\
    RNNModule_residual m x = Ok y /\ shape4 y = (B, K, T, N) /\
    (forall b k t n, at4 y b k t n
       = (flat3 p (offset4 (B, K, T, N) b k t n) + at4 x b k t n)%R).
Proof.
  intros Hs HN.
  destruct (RNNModule_branch_ok m x B K T N Hs HN) as (p & Hp & Hps).
  exists p. unfold RNNModule_residual. rewrite Hs, Hp. simpl.
  rewrite (view34_ok p B K T N Hps). simpl.
  unfold tadd4. rewrite Hs. cbn [shape4]. rewrite shape4_eqb_refl.
  eexists. repeat split; try eassumption; reflexivity.
Qed.

Lemma RNNModule_forward_ok (m : RNNModule) (x : tensor4) (B K T N : nat) :
  shape4 x = (B, K, T, N) -> N = input_dim m ->
  exists y, RNNModule_forward m x = Ok y /\ shape4 y = (B, T, K, N).
Proof.
  intros Hs HN.
  destruct (RNNModule_residual_ok m x B K T N Hs HN)
    as (p & y & _ & _ & Hy & Hys & _).
  unfold RNNModule_forward. rewrite Hy. simpl.
  eexists. split; [reflexivity|]. unfold permute0213. now rewrite Hys.
Qed.

Lemma RNNModule_forward_inv (m : RNNModule) (x y : tensor4) (B K T N : nat) :
  shape4 x = (B, K, T, N) -> RNNModule_forward m x = Ok y ->
  N = input_dim m /\ shape4 y = (B, T, K, N).
Proof.
  intros Hs Hy.
  assert (HN : N = input_dim m).
  { unfold RNNModule_forward, RNNModule_residual in Hy. rewrite Hs in Hy.
    destruct (RNNModule_branch m x) as [p|e] eqn:Hp; simpl in Hy;
      [|discriminate].
    exact (RNNModule_branch_inv m x p B K T N Hs Hp). }
  split; [exact HN|].
  destruct (RNNModule_forward_ok m x B K T N Hs HN) as (y' & Hy' & Hys).
  rewrite Hy in Hy'. now inversion Hy'; subst.
Qed.

(** With a zero projection the branch contributes nothing. *)


(** Consecutive blocks: the two middle axes are exchanged by each call. *)


(** ** The stack *)


Lemma Sequential_inv (p : RNNModule * RNNModule) (x y : tensor4) :
  Sequential p x = Ok y ->
  exists B K T, shape4 y = (B, K, T, input_dim (snd p)).
Proof.
  unfold Sequential.
  destruct (RNNModule_forward (fst p) x) as [x1|e] eqn:H1; simpl;
    [|discriminate].
  intros H2. destruct (shape4 x1) as [[[B T] K] N] eqn:Hs1.
  destruct (RNNModule_forward_inv (snd p) x1 y B T K N Hs1 H2) as [HN Hys].
  exists B, K, T. now rewrite Hys, HN.
Qed.

Lemma first_gate_ok (g : SELayer1D) (x : tensor4) (B K T N : nat) :
  shape4 x = (B, K, T, N) -> N = se_channel g ->
  exists y, first_gate g x = Ok y /\ shape4 y = (B, K, T, N).
Proof.
  intros Hs HN. unfold first_gate. rewrite Hs.
  rewrite (view43_ok x B K T N Hs). simpl.
  set (x_ := transpose3 _).
  assert (Hx_ : shape3 x_ = (B * K, N, T)) by reflexivity.
  destruct (SELayer1D_forward_shape g x_ _ _ _ Hx_ HN) as (y & Hy & Hys).
  rewrite Hy. simpl.
  assert (Hty : shape3 (transpose3 y) = (B * K, T, N))
    by (unfold transpose3; now rewrite Hys).
  rewrite (view34_ok _ B K T N Hty). eexists. split; reflexivity.
Qed.


Lemma get_se_ok (n : nat) (se : list SELayer1D) (i : nat) :
  Forall (fun g => se_channel g = n) se -> i < List.length se ->
  exists g, get_se se i = Ok g /\ se_channel g = n.
Proof.
  intros Hall Hi. unfold get_se.
  destruct (nth_error se i) as [g|] eqn:E.
  - exists g. split; [reflexivity|].
    rewrite Forall_forall in Hall. apply Hall. eapply nth_error_In; eauto.
  - apply nth_error_None in E. lia.
Qed.


Lemma odd_gates_nth_pair (se : list SELayer1D) :
  (forall i, nth_error (odd_gates se) i = nth_error se (2 * i + 1)) /\
  (forall a i, nth_error (odd_gates (a :: se)) i = nth_error (a :: se) (2 * i + 1)).
Proof.
  induction se as [|b rest [IH1 IH2]].
  - split; intros.
    + simpl. now destruct i.
    + simpl. replace (2 * i + 1) with (S (2 * i)) by lia. simpl.
      destruct i; simpl; [reflexivity|]. now destruct (i + S (i + 0)).
  - split; [apply IH2|].
    intros a i. destruct i as [|i]; [reflexivity|].
    cbn [odd_gates nth_error]. rewrite IH1.
    replace (2 * S i + 1) with (S (S (2 * i + 1))) by lia. reflexivity.
Qed.

Lemma odd_gates_nth (se : list SELayer1D) (i : nat) :
  nth_error (odd_gates se) i = nth_error se (2 * i + 1).
Proof. apply odd_gates_nth_pair. Qed.

(** The first gate call of an iteration never decides the outcome. *)

Lemma forward_loop_drops_even (n : nat) (se : list SELayer1D)
  (layers : list (RNNModule * RNNModule)) :
  Forall (fun p => block_ok n (fst p) /\ block_ok n (snd p)) layers ->
  Forall (fun g => se_channel g = n) se ->
  forall (i : nat) (x : tensor4),
    2 * i + 2 * List.length layers <= List.length se ->
    forward_loop layers se (2 * i) x
    = forward_one_gate_loop layers (odd_gates se) i x.
Proof.
  intros Hl Hse. induction Hl as [|p layers [Hp1 Hp2] _ IH]; intros i x Hlen.
  - reflexivity.
  - cbn [List.length] in Hlen. cbn [forward_loop forward_one_gate_loop].
    destruct (Sequential p x) as [x1|e] eqn:Hx1; cbn [bind]; [|reflexivity].
    destruct (Sequential_inv p x x1 Hx1) as (B & K & T & Hs1).
    rewrite Hp2 in Hs1.
    destruct (get_se_ok n se (2 * i) Hse ltac:(lia)) as (g0 & Hg0 & Hc0).
    rewrite Hg0. cbn [bind].
    destruct (first_gate_ok g0 x1 B K T n Hs1 (eq_sym Hc0)) as (d & Hd & _).
    rewrite Hd. cbn [bind].
    unfold get_se at 2. rewrite odd_gates_nth. fold (get_se se (2 * i + 1)).
    destruct (get_se se (2 * i + 1)) as [g1|e]; cbn [bind]; [|reflexivity].
    destruct (second_gate g1 x1) as [x2|e]; cbn [bind]; [|reflexivity].
    replace (2 * i + 1 + 1) with (2 * (i + 1)) by lia.
    apply IH. lia.
Qed.

(** ** Construction *)

Lemma mapM_Forall {A B : Type} (f : A -> result B) (P : B -> Prop) :
  (forall a b, f a = Ok b -> P b) ->
  forall l l', mapM f l = Ok l' -> Forall P l' /\ List.length l' = List.length l.
Proof.
  intros Hf. induction l as [|a l IH]; intros l'; simpl.
  - intros [= <-]. split; [constructor | reflexivity].
  - destruct (f a) as [b|e] eqn:Hb; simpl; [|discriminate].
    destruct (mapM f l) as [bs|e]; simpl; [|discriminate].
    intros [= <-]. destruct (IH bs eq_refl) as [HP Hlen].
    split; [constructor; eauto | simpl; now rewrite Hlen].
Qed.

Lemma mapM_ok {A B : Type} (f : A -> result B) (l : list A) :
  (forall a, exists b, f a = Ok b) -> exists l', mapM f l = Ok l'.
Proof.
  intros Hf. induction l as [|a l [bs IH]]; simpl.
  - now eexists.
  - destruct (Hf a) as [b ->]. rewrite IH. simpl. now eexists.
Qed.

Lemma mapM_raise {A B : Type} (f : A -> result B) (e : exn) (a : A) (l : list A) :
  f a = Raise e -> mapM f (a :: l) = Raise e.
Proof. intros H. simpl. now rewrite H. Qed.

Lemma SELayer1D_init_ok (channel reduction : Z) (w : SEWeights) :
  (0 <= channel)%Z -> (0 < reduction)%Z ->
  SELayer1D_init channel reduction w
  = Ok (mkSE (Z.to_nat channel) (Z.to_nat (channel / reduction)) w).
Proof.
  intros Hc Hr. unfold SELayer1D_init, floordiv, alloc2.
  pose proof (Z.div_pos channel reduction Hc Hr) as Hh.
  destruct (reduction =? 0)%Z eqn:E0; [apply Z.eqb_eq in E0; lia|].
  cbn [bind].
  destruct (channel / reduction <? 0)%Z eqn:E1; [apply Z.ltb_lt in E1; lia|].
  destruct (channel <? 0)%Z eqn:E2; [apply Z.ltb_lt in E2; lia|].
  reflexivity.
Qed.

Lemma SELayer1D_init_inv (channel reduction : Z) (w : SEWeights) (g : SELayer1D) :
  SELayer1D_init channel reduction w = Ok g -> se_channel g = Z.to_nat channel.
Proof.
  unfold SELayer1D_init.
  destruct (floordiv channel reduction); simpl; [|discriminate].
  destruct (alloc2 _ _); simpl; [|discriminate].
  destruct (alloc2 _ _); simpl; [|discriminate].
  now intros [= <-].
Qed.

Lemma RNNModule_init_ok (n h : Z) (rnn_type : string) (k : rnn_kind)
  (bidirectional : bool) (w : RNNWeights) :
  (0 < n)%Z -> (0 < h)%Z -> getattr_nn rnn_type = Ok (Recurrent k) ->
  RNNModule_init n h rnn_type bidirectional w
  = Ok (mkRNN (Z.to_nat n) k
          (Z.to_nat (if bidirectional then h * 2 else h)%Z) w).
Proof.
  intros Hn Hh Hk. unfold RNNModule_init, GroupNorm_init.
  destruct (n =? 0)%Z eqn:E0; [apply Z.eqb_eq in E0; lia|].
  rewrite Z_mod_same_full. cbn [Z.eqb negb].
  destruct (n <? 0)%Z eqn:E1; [apply Z.ltb_lt in E1; lia|].
  cbn [bind]. rewrite Hk. cbn [bind rnn_init].
  destruct (h <=? 0)%Z eqn:E2; [apply Z.leb_le in E2; lia|].
  rewrite E1. cbn [bind]. unfold alloc2. rewrite E1. cbn [orb].
  destruct ((if bidirectional then h * 2 else h) <? 0)%Z eqn:E3.
  - apply Z.ltb_lt in E3. destruct bidirectional; lia.
  - reflexivity.
Qed.

Lemma RNNModule_init_inv (n h : Z) (rnn_type : string) (bidirectional : bool)
  (w : RNNWeights) (m : RNNModule) :
  RNNModule_init n h rnn_type bidirectional w = Ok m ->
  input_dim m = Z.to_nat n.
Proof.
  unfold RNNModule_init.
  destruct (GroupNorm_init n n); simpl; [|discriminate].
  destruct (getattr_nn rnn_type); simpl; [|discriminate].
  destruct (rnn_init _ _ _); simpl; [|discriminate].
  destruct (alloc2 _ _); simpl; [|discriminate].
  now intros [= <-].
Qed.

(** A stack that [__init__] returns is well formed. *)

Lemma init_stack_ok (n h : Z) (rnn_type : string) (bidirectional : bool)
  (num_layers : Z) (wt wk : nat -> RNNWeights) (ws : nat -> SEWeights)
  (s : BandSequenceModelModule) :
  BandSequenceModelModule_init n h rnn_type bidirectional num_layers wt wk ws
  = Ok s ->
  stack_ok (Z.to_nat n) s.
Proof.
  unfold BandSequenceModelModule_init.
  destruct (mapM _ (seq 0 (Z.to_nat num_layers))) as [layers|e] eqn:Hl;
    cbn [bind]; [|discriminate].
  destruct (mapM _ (seq 0 (Z.to_nat (num_layers * 2)))) as [gates|e] eqn:Hg;
    cbn [bind]; [|discriminate].
  intros [= <-]. unfold stack_ok. cbn [bsrnn se_layers].
  apply (mapM_Forall _
           (fun p => block_ok (Z.to_nat n) (fst p) /\ block_ok (Z.to_nat n) (snd p)))
    in Hl.
  - apply (mapM_Forall _ (fun g => se_channel g = Z.to_nat n)) in Hg.
    + destruct Hl as [Hl Hll], Hg as [Hg Hgl].
      repeat split; [exact Hl | exact Hg |].
      rewrite Hgl, Hll, !length_seq. lia.
    + intros j g. apply SELayer1D_init_inv.
  - intros i p.
    destruct (RNNModule_init n h rnn_type bidirectional (wt i)) as [m1|e] eqn:H1;
      cbn [bind]; [|discriminate].
    destruct (RNNModule_init n h rnn_type bidirectional (wk i)) as [m2|e] eqn:H2;
      cbn [bind]; [|discriminate].
    intros [= <-]. split; eapply RNNModule_init_inv; eauto.
Qed.

Lemma init_succeeds (n h : Z) (rnn_type : string) (k : rnn_kind)
  (bidirectional : bool) (num_layers : Z)
  (wt wk : nat -> RNNWeights) (ws : nat -> SEWeights) :
  (0 < n)%Z -> (0 < h)%Z -> getattr_nn rnn_type = Ok (Recurrent k) ->
  exists s,
    BandSequenceModelModule_init n h rnn_type bidirectional num_layers wt wk ws
    = Ok s.
Proof.
  intros Hn Hh Hk. unfold BandSequenceModelModule_init.
  edestruct (mapM_ok (fun i =>
      rnn_across_t <- RNNModule_init n h rnn_type bidirectional (wt i) ;;
      rnn_across_k <- RNNModule_init n h rnn_type bidirectional (wk i) ;;
      Ok (rnn_across_t, rnn_across_k)) (seq 0 (Z.to_nat num_layers)))
    as [layers ->].
  { intros i. rewrite !(RNNModule_init_ok n h rnn_type k) by assumption.
    cbn [bind]. now eexists. }
  cbn [bind].
  edestruct (mapM_ok (fun j => SELayer1D_init n default_reduction (ws j))
               (seq 0 (Z.to_nat (num_layers * 2)))) as [gates ->].
  { intros j. rewrite SELayer1D_init_ok by (unfold default_reduction; lia).
    now eexists. }
  cbn [bind]. now eexists.
Qed.

(** ** Values through the gates and the blocks *)









(** ** The sample stack *)

Lemma init_sample :
  BandSequenceModelModule_init 16 32 "LSTM" true 1
    (fun _ => zero_block_weights) (fun _ => zero_block_weights)
    (fun _ => zero_gate_weights)
  = Ok sample_stack.
Proof. reflexivity. Qed.



(** ** Group normalisation with one channel per group *)







(** * The claims *)


(** C2: for every stack that [__init__] returns and every input, [forward]
    equals the forward pass of the same stack with the even-indexed gates
    removed: the value computed by [se_layers[2i]] is never read. *)
Theorem C2_even_gates_discarded (n h : Z) (rnn_type : string)
  (bidirectional : bool) (num_layers : Z)
  (wt wk : nat -> RNNWeights) (ws : nat -> SEWeights)
  (s : BandSequenceModelModule) :
  BandSequenceModelModule_init n h rnn_type bidirectional num_layers wt wk ws
  = Ok s ->
  forall x, forward s x = forward_without_even_gates s x.
Proof.
  intros Hinit x. apply init_stack_ok in Hinit.
  destruct Hinit as (Hl & Hg & Hlen).
  unfold forward, forward_without_even_gates.
  change 0 with (2 * 0) at 1.
  apply (forward_loop_drops_even (Z.to_nat n)); [assumption | assumption | lia].
Qed.

Lemma C2_even_gates_discarded_witness :
  forward sample_stack (ones4 2 4 8 16)
  = forward_without_even_gates sample_stack (ones4 2 4 8 16).
Proof.
  apply (C2_even_gates_discarded 16 32 "LSTM" true 1
           (fun _ => zero_block_weights) (fun _ => zero_block_weights)
           (fun _ => zero_gate_weights) sample_stack eq_refl).
Defined.

(** C3, as the source has it: no divisibility is checked.  A gate with
    positive channel count and positive reduction factor is constructed
    with hidden width [channel // reduction], and a stack with positive
    sizes and a recurrent layer name is constructed, whether or not the
    reduction factor divides the feature width. *)
Theorem C3_construction_takes_the_floor (channel reduction : Z) (w : SEWeights)
  (h : Z) (rnn_type : string) (k : rnn_kind) (bidirectional : bool)
  (num_layers : Z) (wt wk : nat -> RNNWeights) (ws : nat -> SEWeights) :
  (0 < channel)%Z -> (0 < reduction)%Z -> (0 < h)%Z ->
  getattr_nn rnn_type = Ok (Recurrent k) ->
  SELayer1D_init channel reduction w
  = Ok (mkSE (Z.to_nat channel) (Z.to_nat (channel / reduction)) w) /\
  exists s,
    BandSequenceModelModule_init channel h rnn_type bidirectional num_layers
      wt wk ws = Ok s.
Proof.
  intros Hc Hr Hh Hk. split.
  - apply SELayer1D_init_ok; lia.
  - now apply (init_succeeds channel h rnn_type k).
Qed.

Lemma C3_construction_takes_the_floor_witness :
  SELayer1D_init 32 16 zero_gate_weights
  = Ok (mkSE (Z.to_nat 32) (Z.to_nat (32 / 16)) zero_gate_weights) /\
  exists s,
    BandSequenceModelModule_init 32 64 "LSTM" true 2
      (fun _ => zero_block_weights) (fun _ => zero_block_weights)
      (fun _ => zero_gate_weights) = Ok s.
Proof.
  apply (C3_construction_takes_the_floor 32 16 zero_gate_weights 64 "LSTM"
           LSTM true 2); [lia | lia | lia | reflexivity].
Defined.

(** C3, as stated, fails: 16 does not divide 24, yet the gate and the
    stack of width 24 are constructed. *)
Lemma C3_nondivisible_width_constructs :
  (24 mod 16 <> 0)%Z /\
  SELayer1D_init 24 16 zero_gate_weights = Ok (mkSE 24 1 zero_gate_weights) /\
  is_ok (BandSequenceModelModule_init 24 32 "LSTM" true 1
           (fun _ => zero_block_weights) (fun _ => zero_block_weights)
           (fun _ => zero_gate_weights)) = true.
Proof.
  split; [discriminate|]. split; reflexivity.
Qed.

(** C4: with the default arguments of [__init__] ([rnn_type = 'lstm'],
    bidirectional, 12 layers) and widths 128 and 256 the constructor
    raises [AttributeError]: the layer is looked up under a name the
    library does not have.  With the name ["LSTM"], which the script at
    the end of the file passes, the same configuration is constructed. *)
Theorem C4_default_rnn_type_is_not_found
  (wt wk : nat -> RNNWeights) (ws : nat -> SEWeights) :
  BandSequenceModelModule_init 128 256 default_rnn_type default_bidirectional
    default_num_layers wt wk ws = Raise AttributeError /\
  exists s,
    BandSequenceModelModule_init 128 256 "LSTM" default_bidirectional
      default_num_layers wt wk ws = Ok s.
Proof.
  split.
  - reflexivity.
  - apply (init_succeeds 128 256 "LSTM" LSTM); [lia | lia | reflexivity].
Qed.














(** * Further properties of the modules *)

(** ** Reshaping *)

(** X15: folding the two leading axes with [view(B*K, T, N)] and unfolding
    them again with [view(B, K, T, N)] succeeds and restores every entry. *)
Theorem view_fold_unfold_roundtrip (x : tensor4) (B K T N : nat) :
  shape4 x = (B, K, T, N) ->
  exists y z,
    view43 x (B * K, T, N) = Ok y /\
    view34 y (B, K, T, N) = Ok z /\
    shape4 z = shape4 x /\
    forall b k t n, k < K -> t < T -> n < N ->
      at3 y (b * K + k) t n = at4 x b k t n /\
      at4 z b k t n = at4 x b k t n.
Proof.
  intros Hs. rewrite (view43_ok x B K T N Hs).
  set (y := mk3 (B * K, T, N) _).
  assert (Hys : shape3 y = (B * K, T, N)) by reflexivity.
  exists y. eexists. split; [reflexivity|].
  split; [exact (view34_ok y B K T N Hys)|].
  split; [now rewrite Hs|].
  intros b k t n Hk Ht Hn. cbn [at4].
  rewrite (unfold_at y B K T N b k t n Hys Ht Hn). unfold y. cbn [at3].
  rewrite (fold_at x B K T N b k t n Hs Hk Ht Hn). now split.
Qed.

Lemma view_fold_unfold_roundtrip_witness :
  exists y z,
    view43 (ramp4 2 4 8 16) (2 * 4, 8, 16) = Ok y /\
    view34 y (2, 4, 8, 16) = Ok z /\
    shape4 z = shape4 (ramp4 2 4 8 16) /\
    forall b k t n, k < 4 -> t < 8 -> n < 16 ->
      at3 y (b * 4 + k) t n = at4 (ramp4 2 4 8 16) b k t n /\
      at4 z b k t n = at4 (ramp4 2 4 8 16) b k t n.
Proof.
  apply (view_fold_unfold_roundtrip (ramp4 2 4 8 16) 2 4 8 16 eq_refl).
Defined.

(** ** Inputs of the wrong width *)

(** X1: the gate layer raises [RuntimeError] on an input whose channel
    count is not the one it was built for. *)
Theorem SELayer1D_forward_channel_mismatch (m : SELayer1D) (x : tensor3)
  (r c l : nat) :
  shape3 x = (r, c, l) -> c <> se_channel m ->
  SELayer1D_forward m x = Raise RuntimeError.
Proof.
  intros Hs Hc.
  unfold SELayer1D_forward, SELayer1D_gate, SELayer1D_logits, avg_pool, conv1d.
  rewrite Hs. cbn [shape3 bind].
  apply Nat.eqb_neq in Hc. now rewrite Hc.
Qed.

Lemma SELayer1D_forward_channel_mismatch_witness :
  SELayer1D_forward mixing_gate (ramp3 8 12 8) = Raise RuntimeError.
Proof.
  apply (SELayer1D_forward_channel_mismatch mixing_gate (ramp3 8 12 8) 8 12 8
           eq_refl).
  cbn. lia.
Defined.




(** ** What [__init__] builds *)

Lemma RNNModule_init_fields (n h : Z) (rnn_type : string) (bidirectional : bool)
  (w : RNNWeights) (m : RNNModule) :
  RNNModule_init n h rnn_type bidirectional w = Ok m ->
  input_dim m = Z.to_nat n /\
  rnn_features m = Z.to_nat (if bidirectional then h * 2 else h)%Z /\
  rnn_weights m = w /\
  (0 < n)%Z /\ (0 < h)%Z /\ getattr_nn rnn_type = Ok (Recurrent (rnn_cls m)).
Proof.
  unfold RNNModule_init, GroupNorm_init.
  destruct (n =? 0)%Z eqn:E0; cbn [bind]; [discriminate|].
  destruct (negb (n mod n =? 0)%Z); cbn [bind]; [discriminate|].
  destruct (n <? 0)%Z eqn:E1; cbn [bind]; [discriminate|].
  destruct (getattr_nn rnn_type) as [[k|]|e]; cbn [bind rnn_init];
    try discriminate.
  destruct (h <=? 0)%Z eqn:E2; cbn [bind]; [discriminate|].
  rewrite E1. cbn [bind].
  destruct (alloc2 _ _); cbn [bind]; [|discriminate].
  intros [= <-]. cbn.
  apply Z.eqb_neq in E0. apply Z.ltb_ge in E1. apply Z.leb_gt in E2.
  repeat split; try reflexivity; lia.
Qed.

Lemma SELayer1D_init_fields (channel reduction : Z) (w : SEWeights)
  (g : SELayer1D) :
  SELayer1D_init channel reduction w = Ok g ->
  se_channel g = Z.to_nat channel /\
  se_hidden g = Z.to_nat (channel / reduction) /\
  se_weights g = w.
Proof.
  unfold SELayer1D_init, floordiv.
  destruct (reduction =? 0)%Z; cbn [bind]; [discriminate|].
  destruct (alloc2 _ _); cbn [bind]; [|discriminate].
  destruct (alloc2 _ _); cbn [bind]; [|discriminate].
  now intros [= <-].
Qed.

(** X5: a stack that [__init__] returns holds [num_layers] pairs of blocks
    and twice as many gate layers (none when [num_layers] is not
    positive); every block has the given input width and a projection
    input of [2 * hidden] or [hidden] features, every gate layer has the
    given channel count and [input_dim_size // 16] hidden channels. *)
Theorem init_builds_layers_and_gates (n h : Z) (rnn_type : string)
  (bidirectional : bool) (num_layers : Z)
  (wt wk : nat -> RNNWeights) (ws : nat -> SEWeights)
  (s : BandSequenceModelModule) :
  BandSequenceModelModule_init n h rnn_type bidirectional num_layers wt wk ws
  = Ok s ->
  List.length (bsrnn s) = Z.to_nat num_layers /\
  List.length (se_layers s) = 2 * Z.to_nat num_layers /\
  Forall (fun p =>
            forall m, m = fst p \/ m = snd p ->
              input_dim m = Z.to_nat n /\
              rnn_features m
              = Z.to_nat (if bidirectional then h * 2 else h)%Z)
         (bsrnn s) /\
  Forall (fun g => se_channel g = Z.to_nat n /\
                   se_hidden g = Z.to_nat (n / 16))
         (se_layers s).
Proof.
  unfold BandSequenceModelModule_init.
  destruct (mapM _ (seq 0 (Z.to_nat num_layers))) as [layers|e] eqn:Hl;
    cbn [bind]; [|discriminate].
  destruct (mapM _ (seq 0 (Z.to_nat (num_layers * 2)))) as [gates|e] eqn:Hg;
    cbn [bind]; [|discriminate].
  intros [= <-]. cbn [bsrnn se_layers].
  apply (mapM_Forall _
           (fun p => forall m, m = fst p \/ m = snd p ->
              input_dim m = Z.to_nat n /\
              rnn_features m
              = Z.to_nat (if bidirectional then h * 2 else h)%Z)) in Hl.
  - apply (mapM_Forall _
             (fun g => se_channel g = Z.to_nat n /\
                       se_hidden g = Z.to_nat (n / 16))) in Hg.
    + destruct Hl as [Hl Hll], Hg as [Hg Hgl].
      rewrite Hll, Hgl, !length_seq.
      repeat split; try assumption; lia.
    + intros j g Hj. apply SELayer1D_init_fields in Hj.
      unfold default_reduction in Hj. tauto.
  - intros i p.
    destruct (RNNModule_init n h rnn_type bidirectional (wt i)) as [m1|e] eqn:H1;
      cbn [bind]; [|discriminate].
    destruct (RNNModule_init n h rnn_type bidirectional (wk i)) as [m2|e] eqn:H2;
      cbn [bind]; [|discriminate].
    intros [= <-] m [-> | ->]; cbn [fst snd].
    + apply RNNModule_init_fields in H1. tauto.
    + apply RNNModule_init_fields in H2. tauto.
Qed.

Lemma init_builds_layers_and_gates_witness :
  List.length (bsrnn sample_stack) = Z.to_nat 1 /\
  List.length (se_layers sample_stack) = 2 * Z.to_nat 1 /\
  Forall (fun p =>
            forall m, m = fst p \/ m = snd p ->
              input_dim m = Z.to_nat 16 /\
              rnn_features m = Z.to_nat (if true then 32 * 2 else 32)%Z)
         (bsrnn sample_stack) /\
  Forall (fun g => se_channel g = Z.to_nat 16 /\
                   se_hidden g = Z.to_nat (16 / 16))
         (se_layers sample_stack).
Proof.
  apply (init_builds_layers_and_gates 16 32 "LSTM" true 1
           (fun _ => zero_block_weights) (fun _ => zero_block_weights)
           (fun _ => zero_gate_weights) sample_stack eq_refl).
Defined.



(** X4: with [num_layers] zero or negative the loops of [__init__] do not
    run: construction succeeds whatever the other arguments are (no layer
    is looked up or allocated), the stack is empty, and [forward] returns
    its input unchanged, whatever its shape. *)
Theorem init_without_layers_is_identity (n h : Z) (rnn_type : string)
  (bidirectional : bool) (num_layers : Z)
  (wt wk : nat -> RNNWeights) (ws : nat -> SEWeights) :
  (num_layers <= 0)%Z ->
  BandSequenceModelModule_init n h rnn_type bidirectional num_layers wt wk ws
  = Ok (mkBS [] []) /\
  forall x, forward (mkBS [] []) x = Ok x.
Proof.
  intros HL. split; [|reflexivity].
  unfold BandSequenceModelModule_init.
  replace (Z.to_nat num_layers) with 0 by lia.
  replace (Z.to_nat (num_layers * 2)) with 0 by lia.
  reflexivity.
Qed.

Lemma init_without_layers_is_identity_witness :
  BandSequenceModelModule_init (-3) 0 "no such layer" false 0
    (fun _ => mixing_block_weights) (fun _ => mixing_block_weights)
    (fun _ => mixing_gate_weights)
  = Ok (mkBS [] []) /\
  forall x, forward (mkBS [] []) x = Ok x.
Proof.
  apply (init_without_layers_is_identity (-3) 0 "no such layer" false 0).
  lia.
Defined.

(** ** When construction fails *)

(** X6: [SELayer1D(channel, reduction)] raises [ZeroDivisionError] when
    [reduction] is 0, and [RuntimeError] when [reduction] is negative and
    [channel] positive (the hidden channel count [channel // reduction] is
    then negative). *)
Theorem SELayer1D_init_bad_reduction (channel reduction : Z) (w : SEWeights) :
  (reduction <= 0)%Z -> (0 < channel)%Z ->
  SELayer1D_init channel reduction w
  = Raise (if (reduction =? 0)%Z then ZeroDivisionError else RuntimeError).
Proof.
  intros Hr Hc. unfold SELayer1D_init, floordiv.
  destruct (reduction =? 0)%Z eqn:E0; [reflexivity|]. cbn [bind].
  apply Z.eqb_neq in E0.
  assert (Hneg : (channel / reduction < 0)%Z).
  { pose proof (Z.div_mod channel reduction E0) as Hdm.
    pose proof (Z.mod_neg_bound channel reduction ltac:(lia)) as Hb.
    nia. }
  unfold alloc2. apply Z.ltb_lt in Hneg. now rewrite Hneg.
Qed.

Lemma SELayer1D_init_bad_reduction_witness :
  SELayer1D_init 16 0 mixing_gate_weights = Raise ZeroDivisionError /\
  SELayer1D_init 16 (-4) mixing_gate_weights = Raise RuntimeError.
Proof.
  split.
  - apply (SELayer1D_init_bad_reduction 16 0 mixing_gate_weights); lia.
  - apply (SELayer1D_init_bad_reduction 16 (-4) mixing_gate_weights); lia.
Defined.



(** ** The script at the end of [bandsequence.py] *)

Lemma bind_kwargs_unexpected (kwargs : list (string * pyval)) :
  (exists kv, In kv kwargs /\ is_parameter (fst kv) = false) ->
  bind_kwargs kwargs = Raise TypeError.
Proof.
  intros (kv & Hin & Hkv). unfold bind_kwargs.
  replace (existsb _ kwargs) with true; [reflexivity|].
  symmetry. apply existsb_exists. exists kv. split; [exact Hin|].
  now rewrite Hkv.
Qed.

(** X14: calling the constructor with a dictionary that holds a key which
    is not a parameter of [__init__] raises [TypeError] before any layer is
    built.  The dictionary [cfg] of the script holds ["t_timesteps"]. *)
Theorem call_with_unexpected_keyword (kwargs : list (string * pyval))
  (wt wk : nat -> RNNWeights) (ws : nat -> SEWeights) :
  (exists kv, In kv kwargs /\ is_parameter (fst kv) = false) ->
  BandSequenceModelModule_call kwargs wt wk ws = Raise TypeError.
Proof.
  intros H. unfold BandSequenceModelModule_call.
  now rewrite (bind_kwargs_unexpected kwargs H).
Qed.

Lemma call_with_unexpected_keyword_witness :
  BandSequenceModelModule_call main_cfg
    (fun _ => mixing_block_weights) (fun _ => mixing_block_weights)
    (fun _ => mixing_gate_weights)
  = Raise TypeError.
Proof.
  apply (call_with_unexpected_keyword main_cfg).
  exists ("t_timesteps"%string, PyInt 259). split.
  - left. reflexivity.
  - reflexivity.
Defined.

(** ** What the gate depends on *)




(** ** Group normalisation inside a block *)









(** ** Values through a pair of blocks *)




(** ** The two gate calls of an iteration *)






